(** * BaseLayer: the layer contract of fontParts

    A shallow embedding of [Lib/fontParts/objects/base/layer.py] and the
    properties of its specification.

    The Python class is a validate-and-delegate shim: every public
    operation validates its input with the [validators] module and forwards
    to a private hook that an environment subclass overrides.  The embedding
    keeps that shape:

    - a method is a computation in the monad [M]: it takes the world (the
      live fonts, the layer's [_font] attribute, the environment's own
      state), and returns a result or a raised exception, the world as the
      method left it, and the list of calls it made;
    - a subclass is a table of overrides ([LayerClass]); calling
      [self._x(...)] resolves to the override when there is one and to the
      body written in [BaseLayer] otherwise;
    - the [validators] module and the glyph, lib and color-tuple types
      live outside [layer.py]: they are the parameters of the development,
      gathered in the class [Environment]. *)

From stdpp Require Import base option list strings gmap.

Open Scope string_scope.
Open Scope list_scope.

(** ** Exceptions and results *)

(** The exceptions the class can raise.  [FontPartsError fmt arg] stands for
    [FontPartsError(fmt % arg)]: the format string as written in the source
    and the value it is applied to. *)
Inductive exn : Type :=
| AssertionError
| AttributeError (attr : string)
| NotImplementedError
| FontPartsError (fmt arg : string)
| ValidationError (msg : string).

Inductive Res (A : Type) : Type :=
| Ok (a : A)
| Raise (e : exn).
Arguments Ok {A} a.
Arguments Raise {A} e.

(** ** Fonts and weak references *)

(** The owning font is external; the layer only reads its [layerOrder]. *)
Record Font : Type := { layerOrder : list string }.

(** A font object is known by its identity; [weakref.ref(font)] keeps the
    identity without keeping the object alive. *)
Definition FontId : Type := positive.

Inductive weakref : Type := WeakRef (referent : FontId).

Definition weakref_ref (font : FontId) : weakref := WeakRef font.

(** ** What the module imports *)

(** [Ext] is the state an environment keeps for its layer; [Glyph], [Lib]
    and [ColorTuple] are the values the hooks traffic in.  The three
    functions are those of the [validators] module: a validator returns the
    validated value or raises. *)
Class Environment : Type := {
  Ext : Type;
  Glyph : Type;
  Lib : Type;
  ColorTuple : Type;
  validateLayerName : string -> Res string;
  validateColor : ColorTuple -> Res ColorTuple;
  validateGlyphName : string -> Res string
}.

Section Core.

Context `{Environment}.

(** [Color(value)] wraps a validated tuple. *)
Inductive Color : Type := MkColor (value : ColorTuple).

(** ** The world *)

(** [fonts] holds the font objects that are alive; a font that was
    destroyed is absent.  [_font] is the layer's instance attribute
    (class default [None]). *)
Record World : Type := {
  fonts : gmap FontId Font;
  _font : option weakref;
  ext : Ext
}.

(** ** Calls *)

(** What a method did, in order: the hooks it called on [self], the
    validators it ran and the reads of the font's [layerOrder]. *)
Inductive event : Type :=
| Call_get_name
| Call_set_name (value : option string)
| Call_get_color
| Call_set_color (value : option ColorTuple)
| Call_get_lib
| Call_getItem (name : string)
| Call_keys
| Call_len
| Call_contains (name : string)
| Call_validateLayerName (value : string)
| Call_validateColor (value : ColorTuple)
| Call_validateGlyphName (value : string)
| Read_layerOrder.

(** ** The monad *)

Definition M (A : Type) : Type := World -> Res A * World * list event.

Definition ret {A} (a : A) : M A := fun w => (Ok a, w, []).

Definition raise {A} (e : exn) : M A := fun w => (Raise e, w, []).

Definition bind {A B} (m : M A) (f : A -> M B) : M B :=
  fun w =>
    match m w with
    | (Ok a, w1, l1) =>
        match f a w1 with
        | (r, w2, l2) => (r, w2, l1 ++ l2)
        end
    | (Raise e, w1, l1) => (Raise e, w1, l1)
    end.

Definition tell (ev : event) : M unit := fun w => (Ok tt, w, [ev]).

Definition get_world : M World := fun w => (Ok w, w, []).

Definition put_world (w : World) : M unit := fun _ => (Ok tt, w, []).

(** A validator call: logged, then its verdict. *)
Definition validate {A} (ev : event) (r : Res A) : M A :=
  fun w => (r, w, [ev]).

(** [a == b] on names and [x in l] on a list of names. *)
Definition py_eq (a b : option string) : bool := bool_decide (a = b).

Definition py_in (x : string) (l : list string) : bool := bool_decide (x ∈ l).

End Core.

Arguments py_eq : simpl never.
Arguments py_in : simpl never.

Notation "x <- m ;; k" := (bind m (fun x => k))
  (at level 100, m at next level, right associativity).
Notation "m ;; k" := (bind m (fun _ => k))
  (at level 100, right associativity).

Section Layer.

Context `{Environment}.

(** [assert cond] *)
Definition py_assert (cond : bool) : M unit :=
  if cond then ret tt else raise AssertionError.

(** ** Subclasses *)

(** A hook written by an environment: any change of the world, a result or
    an exception. *)
Definition Hook (A : Type) : Type := World -> Res A * World.

Definition run_hook {A} (h : Hook A) : M A :=
  fun w => match h w with (r, w1) => (r, w1, []) end.

(** The methods a subclass may define.  [None]: the subclass does not
    define the method and the one of [BaseLayer] runs. *)
Record LayerClass : Type := {
  o_get_name : option (Hook (option string));
  o_set_name : option (option string -> Hook unit);
  o_get_color : option (Hook (option ColorTuple));
  o_set_color : option (option ColorTuple -> Hook unit);
  o_get_lib : option (Hook Lib);
  o_getItem : option (string -> Hook Glyph);
  o_keys : option (Hook (list string));
  o_len : option (Hook nat);
  o_contains : option (string -> Hook bool)
}.

(** The bare base class: nothing is overridden. *)
Definition BaseLayer : LayerClass :=
  {| o_get_name := None; o_set_name := None; o_get_color := None;
     o_set_color := None; o_get_lib := None; o_getItem := None;
     o_keys := None; o_len := None; o_contains := None |}.

(** [self._x(...)]: the call is recorded, then the subclass's method runs
    if there is one, else the base class's. *)
Definition invoke {A} (ev : event) (override : option (Hook A)) (base : M A)
  : M A :=
  tell ev ;;
  match override with
  | Some h => run_hook h
  | None => base
  end.

(** Modelled from the spec: [BaseObject.raiseNotImplementedError] (module
    [base], which is not part of [layer.py]) is the "not implemented"
    failure signal of the parent class; it raises and never returns. *)
Definition raiseNotImplementedError {A} : M A := raise NotImplementedError.

(** Modelled from the spec: [dynamicProperty(name, doc)] (module [base],
    which is not part of [layer.py]) is the generic property declaration of
    the parent class; reading the attribute calls [self._get_<name>()] and
    assigning to it calls [self._set_<name>(value)]. *)
Definition dynamicProperty_get {A} (getter : M A) : M A := getter.

Definition dynamicProperty_set {A} (setter : A -> M unit) (value : A)
  : M unit := setter value.

(** ** Parents *)

(** [self._font()]: the referent, or [None] once it is gone. *)
Definition weakref_call (r : weakref) : M (option Font) :=
  w <- get_world ;;
  match r with
  | WeakRef referent => ret (fonts w !! referent)
  end.

Definition _get_font : M (option Font) :=
  w <- get_world ;;
  match _font w with
  | None => ret None
  | Some r => weakref_call r
  end.

Definition setattr_font (value : option weakref) : M unit :=
  w <- get_world ;;
  put_world {| fonts := fonts w; _font := value; ext := ext w |}.

Definition _set_font (font : option FontId) : M unit :=
  w <- get_world ;;
  py_assert (bool_decide (_font w = None)) ;;
  let font :=
    match font with
    | Some f => Some (weakref_ref f)
    | None => None
    end in
  setattr_font font.

(** [font = dynamicProperty("font", ...)] *)
Definition font_get : M (option Font) := dynamicProperty_get _get_font.

Definition font_set (font : option FontId) : M unit :=
  dynamicProperty_set _set_font font.

Definition getParent : M (option Font) := font_get.

(** [font.layerOrder], for the [font] the property returned. *)
Definition getattr_layerOrder (font : option Font) : M (list string) :=
  match font with
  | Some f => tell Read_layerOrder ;; ret (layerOrder f)
  | None => raise (AttributeError "layerOrder")
  end.

(** ** Identification *)

Definition _get_name (self : LayerClass) : M (option string) :=
  invoke Call_get_name (o_get_name self) raiseNotImplementedError.

Definition _set_name (self : LayerClass) (value : option string) : M unit :=
  invoke (Call_set_name value) ((fun h => h value) <$> o_set_name self)
    raiseNotImplementedError.

Definition _get_base_name (self : LayerClass) : M (option string) :=
  value <- _get_name self ;;
  match value with
  | Some v =>
      v <- validate (Call_validateLayerName v) (validateLayerName v) ;;
      ret (Some v)
  | None => ret None
  end.

(** [name = dynamicProperty("base_name", ...)], read *)
Definition name_get (self : LayerClass) : M (option string) :=
  dynamicProperty_get (_get_base_name self).

Definition _set_base_name (self : LayerClass) (value : option string)
  : M unit :=
  current <- name_get self ;;
  if py_eq value current then ret tt
  else
    value <-
      match value with
      | Some v =>
          v <- validate (Call_validateLayerName v) (validateLayerName v) ;;
          font <- font_get ;;
          existing <- getattr_layerOrder font ;;
          if py_in v existing
          then raise (FontPartsError
                        "A layer with the name %r already exists." v)
          else ret (Some v)
      | None => ret None
      end ;;
    _set_name self value.

(** [name = dynamicProperty("base_name", ...)], assignment *)
Definition name_set (self : LayerClass) (value : option string) : M unit :=
  dynamicProperty_set (_set_base_name self) value.

Definition _get_color (self : LayerClass) : M (option ColorTuple) :=
  invoke Call_get_color (o_get_color self) raiseNotImplementedError.

Definition _set_color (self : LayerClass) (value : option ColorTuple)
  : M unit :=
  invoke (Call_set_color value) ((fun h => h value) <$> o_set_color self)
    raiseNotImplementedError.

Definition _get_base_color (self : LayerClass) : M (option Color) :=
  value <- _get_color self ;;
  match value with
  | Some v =>
      v <- validate (Call_validateColor v) (validateColor v) ;;
      ret (Some (MkColor v))
  | None => ret None
  end.

Definition _set_base_color (self : LayerClass) (value : option ColorTuple)
  : M unit :=
  value <-
    match value with
    | Some v =>
        v <- validate (Call_validateColor v) (validateColor v) ;;
        ret (Some v)
    | None => ret None
    end ;;
  _set_color self value.

(** [color = dynamicProperty("base_color", ...)] *)
Definition color_get (self : LayerClass) : M (option Color) :=
  dynamicProperty_get (_get_base_color self).

Definition color_set (self : LayerClass) (value : option ColorTuple)
  : M unit :=
  dynamicProperty_set (_set_base_color self) value.

(** ** Sub-objects *)

Definition _get_lib (self : LayerClass) : M Lib :=
  invoke Call_get_lib (o_get_lib self) raiseNotImplementedError.

(** [lib = dynamicProperty("lib", ...)]; the class has no [_set_lib]. *)
Definition lib_get (self : LayerClass) : M Lib :=
  dynamicProperty_get (_get_lib self).

(** ** Glyph interaction *)

Definition _keys (self : LayerClass) : M (list string) :=
  invoke Call_keys (o_keys self) raiseNotImplementedError.

Definition keys (self : LayerClass) : M (list string) := _keys self.

Definition _len (self : LayerClass) : M nat :=
  invoke Call_len (o_len self)
    (names <- keys self ;; ret (length names)).

Definition __len__ (self : LayerClass) : M nat := _len self.

Definition _contains (self : LayerClass) (name : string) : M bool :=
  invoke (Call_contains name) ((fun h => h name) <$> o_contains self)
    (names <- keys self ;; ret (py_in name names)).

Definition __contains__ (self : LayerClass) (name : string) : M bool :=
  name <- validate (Call_validateGlyphName name) (validateGlyphName name) ;;
  _contains self name.

Definition has_key := __contains__.

Definition _getItem (self : LayerClass) (name : string) : M Glyph :=
  invoke (Call_getItem name) ((fun h => h name) <$> o_getItem self)
    raiseNotImplementedError.

Definition __getitem__ (self : LayerClass) (name : string) : M Glyph :=
  name <- validate (Call_validateGlyphName name) (validateGlyphName name) ;;
  present <- __contains__ self name ;;
  if negb present
  then raise (FontPartsError "No glyph named %r." name)
  else _getItem self name.

(** *** Iteration *)

(** [_iter] is a generator.  Calling it runs nothing; each [next] runs the
    body up to the following [yield].  A generator is therefore its
    suspension point and the local variable [names]:
    - [IterCreated]: before the first [next];
    - [IterSuspended names]: stopped at [yield self[name]], with [names]
      as it is at that point (the slice [names = names[1:]] has not run);
    - [IterFinished]: the body returned, or raised. *)
Inductive IterState : Type :=
| IterCreated
| IterSuspended (names : list string)
| IterFinished.

(** From the test of [while names:] up to the [yield]. *)
Definition _iter_loop (self : LayerClass) (names : list string)
  : M (option Glyph * IterState) :=
  match names with
  | [] => ret (None, IterFinished)
  | name :: _ =>
      glyph <- __getitem__ self name ;;
      ret (Some glyph, IterSuspended names)
  end.

(** [next(it)]: [Some glyph] is a yielded glyph, [None] is
    [StopIteration].  An exception raised inside the body comes out as the
    exception and leaves the generator finished. *)
Definition _iter_next (self : LayerClass) (it : IterState)
  : M (option Glyph * IterState) :=
  match it with
  | IterCreated =>
      names <- keys self ;;
      _iter_loop self names
  | IterSuspended names =>
      let names := tail names in
      _iter_loop self names
  | IterFinished => ret (None, IterFinished)
  end.

Definition _iter (self : LayerClass) : IterState := IterCreated.

Definition __iter__ (self : LayerClass) : IterState := _iter self.

(** [for glyph in it: ...] with a body that only collects the glyphs:
    [next] until [StopIteration].  [None] when [fuel] calls of [next] did
    not reach the end. *)
Fixpoint collect (fuel : nat) (self : LayerClass) (it : IterState)
  : M (option (list Glyph)) :=
  match fuel with
  | O => ret None
  | S fuel =>
      r <- _iter_next self it ;;
      match r with
      | (None, _) => ret (Some [])
      | (Some glyph, it) =>
          rest <- collect fuel self it ;;
          ret (cons glyph <$> rest)
      end
  end.

(** The iteration as the specification words it, for comparison with
    [_iter_next]: every step fetches the key list anew and takes the first
    remaining name of that fresh list, the first [taken] names being those
    already served. *)
Definition _iter_refetch_next (self : LayerClass) (taken : nat)
  : M (option Glyph * nat) :=
  names <- keys self ;;
  match drop taken names with
  | [] => ret (None, taken)
  | name :: _ =>
      glyph <- __getitem__ self name ;;
      ret (Some glyph, S taken)
  end.

(** *** Declared operations

    The bodies of these methods hold a docstring and nothing else: a call
    returns [None]. *)

Definition newGlyph (self : LayerClass) (name : string) (clear : bool)
  : M (option Glyph) := ret None.

Definition removeGlyph (self : LayerClass) (name : string)
  : M (option unit) := ret None.

Definition insertGlyph (self : LayerClass) (glyph : Glyph)
  (name : option string) : M (option Glyph) := ret None.

Definition round (self : LayerClass) : M (option unit) := ret None.

Definition autoUnicodes (self : LayerClass) : M (option unit) := ret None.

Definition interpolate {Factor : Type} (self : LayerClass) (factor : Factor)
  (minLayer maxLayer : LayerClass)
  (suppressError analyzeOnly showProgress : bool)
  : M (option (list string)) := ret None.

Definition getCharacterMapping (self : LayerClass)
  : M (option (gmap Z (list string))) := ret None.

Definition getReverseComponentMapping (self : LayerClass)
  : M (option (gmap string (list string))) := ret None.

(** ** Callers *)

(** A caller that assigns each of [values] to [layer.font] in turn and
    catches what the assignment raises: the outcome of every attempt and
    the world at the end. *)
Fixpoint font_set_each (values : list (option FontId)) (w : World)
  : list (Res unit) * World :=
  match values with
  | [] => ([], w)
  | value :: values =>
      match font_set value w with
      | (r, w1, _) =>
          match font_set_each values w1 with
          | (rs, w2) => (r :: rs, w2)
          end
      end
  end.

(** The calls of a lookup [self[name]] that finds [name], with the default
    membership test. *)
Definition lookup_calls (name : string) : list event :=
  [Call_validateGlyphName name; Call_validateGlyphName name;
   Call_contains name; Call_keys; Call_getItem name].

(** The error of a lookup that does not find [name]. *)
Definition no_glyph_named (name : string) : exn :=
  FontPartsError "No glyph named %r." name.

(** The color hooks keep what they are given: after [_set_color(value)],
    [_get_color()] returns [value], and reading changes nothing. *)
Definition stores_color (self : LayerClass) : Prop :=
  exists set get,
    o_set_color self = Some set /\ o_get_color self = Some get /\
    forall value w, exists w1,
      set value w = (Ok tt, w1) /\ get w1 = (Ok value, w1).

(** ** Observations on an outcome *)

Definition result {A} (o : Res A * World * list event) : Res A := o.1.1.

Definition world_after {A} (o : Res A * World * list event) : World := o.1.2.

Definition calls {A} (o : Res A * World * list event) : list event := o.2.


(** [m] raises [e] in [w] and leaves [w] as it was. *)
Definition raises {A} (m : M A) (e : exn) (w : World) : Prop :=
  result (m w) = Raise e /\ world_after (m w) = w.

(** What a step of an iteration hands to the caller: a glyph, the end of
    the iteration ([None]) or an exception. *)
Definition served {St} (o : Res (option Glyph * St) * World * list event)
  : Res (option Glyph) :=
  match result o with
  | Ok (glyph, _) => Ok glyph
  | Raise e => Raise e
  end.

(** The outcome of a step that looks [name] up in [w] and, when the lookup
    returns, yields the glyph and suspends on [names]; [l] is what was
    called before the lookup. *)
Definition lookup_and_yield (self : LayerClass) (name : string)
  (names : list string) (w : World) (l : list event)
  : Res (option Glyph * IterState) * World * list event :=
  (match result (__getitem__ self name w) with
   | Ok glyph => Ok (Some glyph, IterSuspended names)
   | Raise e => Raise e
   end,
   world_after (__getitem__ self name w),
   l ++ calls (__getitem__ self name w)).

(** The iteration re-fetches, as a property of a class: once the first
    step has served a glyph, the next step of [_iter_next] serves, in
    whatever world the layer is by then, what the step of
    [_iter_refetch_next] serves there. *)
Definition iter_refetches_every_step (self : LayerClass) : Prop :=
  forall (w0 w : World) (glyph : Glyph) (names : list string),
    result (_iter_next self (__iter__ self) w0)
    = Ok (Some glyph, IterSuspended names) ->
    served (_iter_next self (IterSuspended names) w)
    = served (_iter_refetch_next self 1 w).

(** The name hooks keep what they are given: after [_set_name(value)],
    [_get_name()] returns [value], and reading changes nothing. *)
Definition stores_name (self : LayerClass) : Prop :=
  exists set get,
    o_set_name self = Some set /\ o_get_name self = Some get /\
    forall value w, exists w1,
      set value w = (Ok tt, w1) /\ get w1 = (Ok value, w1).

(** The layer has no font to ask: none was ever assigned, or the one that
    was is gone. *)
Definition fontless (w : World) : Prop :=
  _font w = None \/
  exists r, _font w = Some (weakref_ref r) /\ fonts w !! r = None.

(** How many times [keys] was called on [self]. *)
Fixpoint keys_calls (l : list event) : nat :=
  match l with
  | [] => 0
  | Call_keys :: l => S (keys_calls l)
  | _ :: l => keys_calls l
  end.

End Layer.

Arguments invoke : simpl never.

(** * A small environment

    A layer that keeps its name, its color and its glyphs in a record, with
    validators that hand back what they accept.  It is the environment the
    properties below are run on. *)

Record Store : Type := {
  s_name : option string;
  s_color : option (list nat);
  s_glyphs : list (string * nat)
}.

(** Names: any string but the empty one. *)
Definition check_name (value : string) : Res string :=
  if bool_decide (value = "") then Raise (ValidationError "empty name")
  else Ok value.

(** Colors: four components, each 0 or 1. *)
Definition check_color (value : list nat) : Res (list nat) :=
  if bool_decide (length value = 4) && forallb (fun x => Nat.leb x 1) value
  then Ok value
  else Raise (ValidationError "not a color").

Definition dict_env : Environment :=
  {| Ext := Store; Glyph := nat; Lib := list (string * string);
     ColorTuple := list nat;
     validateLayerName := check_name;
     validateColor := check_color;
     validateGlyphName := check_name |}.

Section DictLayer.

Local Existing Instance dict_env.

Definition with_store (w : World) (s : Store) : World :=
  {| fonts := fonts w; _font := _font w; ext := s |}.

Definition dict_get_name : Hook (option string) :=
  fun w => (Ok (s_name (ext w)), w).

Definition dict_set_name (value : option string) : Hook unit :=
  fun w =>
    (Ok tt, with_store w {| s_name := value; s_color := s_color (ext w);
                            s_glyphs := s_glyphs (ext w) |}).

Definition dict_get_color : Hook (option (list nat)) :=
  fun w => (Ok (s_color (ext w)), w).

Definition dict_set_color (value : option (list nat)) : Hook unit :=
  fun w =>
    (Ok tt, with_store w {| s_name := s_name (ext w); s_color := value;
                            s_glyphs := s_glyphs (ext w) |}).

Definition dict_get_lib : Hook (list (string * string)) :=
  fun w => (Ok [], w).

Definition dict_keys : Hook (list string) :=
  fun w => (Ok (map fst (s_glyphs (ext w))), w).

Fixpoint assoc (name : string) (l : list (string * nat)) : option nat :=
  match l with
  | [] => None
  | (k, v) :: l => if bool_decide (k = name) then Some v else assoc name l
  end.

Definition dict_getItem (name : string) : Hook nat :=
  fun w =>
    match assoc name (s_glyphs (ext w)) with
    | Some g => (Ok g, w)
    | None => (Raise (AttributeError name), w)
    end.

(** The subclass: every required hook, the defaults for the rest. *)
Definition DictLayer : LayerClass :=
  {| o_get_name := Some dict_get_name;
     o_set_name := Some dict_set_name;
     o_get_color := Some dict_get_color;
     o_set_color := Some dict_set_color;
     o_get_lib := Some dict_get_lib;
     o_getItem := Some dict_getItem;
     o_keys := Some dict_keys;
     o_len := None;
     o_contains := None |}.

(** The same subclass with a membership test of its own, which looks the
    name up in the store and does not go through [keys]. *)
Definition dict_contains (name : string) : Hook bool :=
  fun w =>
    (Ok match assoc name (s_glyphs (ext w)) with
        | Some _ => true
        | None => false
        end, w).

Definition IndexedDictLayer : LayerClass :=
  {| o_get_name := Some dict_get_name;
     o_set_name := Some dict_set_name;
     o_get_color := Some dict_get_color;
     o_set_color := Some dict_set_color;
     o_get_lib := Some dict_get_lib;
     o_getItem := Some dict_getItem;
     o_keys := Some dict_keys;
     o_len := None;
     o_contains := Some dict_contains |}.

(** The glyph of each name of [store_ab]. *)
Definition glyph_ab (name : string) : nat :=
  if bool_decide (name = "a") then 1 else 2.

(** A font with three layers; the layer at hand is its ["sketch"]. *)
Definition font1 : Font :=
  {| layerOrder := ["foreground"; "background"; "sketch"] |}.

Definition store_ab : Store :=
  {| s_name := Some "sketch"; s_color := None;
     s_glyphs := [("a", 1); ("b", 2)] |}.

(** The layer before it is given its font, and once attached. *)
Definition w_new : World :=
  {| fonts := {[ 1%positive := font1 ]}; _font := None; ext := store_ab |}.

Definition w_attached : World :=
  {| fonts := {[ 1%positive := font1 ]};
     _font := Some (weakref_ref 1%positive); ext := store_ab |}.

(** The same layer after glyph ["b"] was renamed ["c"]. *)
Definition store_ac : Store :=
  {| s_name := Some "sketch"; s_color := None;
     s_glyphs := [("a", 1); ("c", 3)] |}.

Definition w_renamed : World := with_store w_attached store_ac.

(** The layer after its font was destroyed: the reference is still there,
    the font is not. *)
Definition w_orphan : World :=
  {| fonts := ∅; _font := Some (weakref_ref 1%positive); ext := store_ab |}.

(** A layer whose environment hands out the empty string as its name. *)
Definition store_nameless : Store :=
  {| s_name := Some ""; s_color := None; s_glyphs := [("a", 1); ("b", 2)] |}.

Definition w_nameless : World := with_store w_attached store_nameless.

(** The layer after glyph ["c"] was added. *)
Definition store_abc : Store :=
  {| s_name := Some "sketch"; s_color := None;
     s_glyphs := [("a", 1); ("b", 2); ("c", 3)] |}.

Definition w_grown : World := with_store w_attached store_abc.

(** A layer whose key list holds a name that is no glyph name. *)
Definition store_bad_key : Store :=
  {| s_name := Some "sketch"; s_color := None;
     s_glyphs := [("a", 1); ("", 2); ("b", 3)] |}.

Definition w_bad_key : World := with_store w_attached store_bad_key.

(** The subclass with a membership test that knows no glyph. *)
Definition blind_contains (name : string) : Hook bool :=
  fun w => (Ok false, w).

Definition BlindDictLayer : LayerClass :=
  {| o_get_name := Some dict_get_name;
     o_set_name := Some dict_set_name;
     o_get_color := Some dict_get_color;
     o_set_color := Some dict_set_color;
     o_get_lib := Some dict_get_lib;
     o_getItem := Some dict_getItem;
     o_keys := Some dict_keys;
     o_len := None;
     o_contains := Some blind_contains |}.

(** The glyph of each name of [store_abc]. *)
Definition glyph_abc (name : string) : nat :=
  if bool_decide (name = "a") then 1
  else if bool_decide (name = "b") then 2 else 3.

End DictLayer.

(** * Properties *)

(** [Hin : ev ∈ l] for a list [l] written out, no element of which is
    built like [ev]: [Hin] cannot be. *)
Ltac not_among_calls Hin :=
  repeat (apply elem_of_cons in Hin as [Hin|Hin]; [discriminate Hin|]);
  apply elem_of_nil in Hin; destruct Hin.

(** [Hin : x ∈ l] for a list [l] written out: the goal holds of each element
    by computation. *)
Ltac each_listed Hin :=
  repeat (apply elem_of_cons in Hin as [->|Hin]; [reflexivity|]);
  apply elem_of_nil in Hin; destruct Hin.

Section Properties.

Context `{Environment}.

(** ** Running a computation *)

Lemma bind_Ok {A B} (m : M A) (f : A -> M B) w a w1 l1 :
  m w = (Ok a, w1, l1) ->
  bind m f w = (result (f a w1), world_after (f a w1), l1 ++ calls (f a w1)).
Proof.
  intros Hm. unfold bind. rewrite Hm.
  destruct (f a w1) as [[r w2] l2]. reflexivity.
Qed.

Lemma bind_assoc {A B C} (m : M A) (f : A -> M B) (g : B -> M C) w :
  bind (bind m f) g w = bind m (fun a => bind (f a) g) w.
Proof.
  unfold bind. destruct (m w) as [[[a|e] w1] l1]; [|reflexivity].
  destruct (f a w1) as [[[b|e] w2] l2]; [|reflexivity].
  destruct (g b w2) as [[r w3] l3]. rewrite app_assoc. reflexivity.
Qed.

Lemma bind_ret {A B} (a : A) (f : A -> M B) w : bind (ret a) f w = f a w.
Proof. unfold bind, ret. destruct (f a w) as [[r w2] l2]. reflexivity. Qed.

Lemma world_eta (w : World) :
  {| fonts := fonts w; _font := _font w; ext := ext w |} = w.
Proof. destruct w. reflexivity. Qed.

Lemma py_eq_true (a b : option string) : a = b -> py_eq a b = true.
Proof. intros Hab. unfold py_eq. apply bool_decide_eq_true_2, Hab. Qed.

Lemma py_eq_false (a b : option string) : a <> b -> py_eq a b = false.
Proof. intros Hab. unfold py_eq. apply bool_decide_eq_false_2, Hab. Qed.

Lemma py_in_true (x : string) (l : list string) : x ∈ l -> py_in x l = true.
Proof. intros Hx. unfold py_in. apply bool_decide_eq_true_2, Hx. Qed.

Lemma py_in_false (x : string) (l : list string) :
  x ∉ l -> py_in x l = false.
Proof. intros Hx. unfold py_in. apply bool_decide_eq_false_2, Hx. Qed.

(** ** The font back-reference *)

Lemma _set_font_unset (w : World) (font : option FontId) :
  _font w = None ->
  font_set font w =
    (Ok tt, {| fonts := fonts w; _font := weakref_ref <$> font;
               ext := ext w |}, []).
Proof.
  intros Hw. unfold font_set, dynamicProperty_set, _set_font, bind.
  cbn. rewrite Hw. cbn. destruct font; reflexivity.
Qed.

Lemma _set_font_taken (w : World) (r : weakref) (font : option FontId) :
  _font w = Some r -> font_set font w = (Raise AssertionError, w, []).
Proof.
  intros Hw. unfold font_set, dynamicProperty_set, _set_font, bind.
  cbn. rewrite Hw. reflexivity.
Qed.

Lemma font_set_each_taken (values : list (option FontId)) (w : World)
  (r : weakref) :
  _font w = Some r ->
  font_set_each values w = (map (fun _ => Raise AssertionError) values, w).
Proof.
  intros Hw. induction values as [|v values IH]; [reflexivity|].
  cbn [font_set_each map]. rewrite (_set_font_taken w r v Hw), IH.
  reflexivity.
Qed.

(** C1. Starting from a layer without a font, assigning a font succeeds and
    stores a weak reference to it.  From then on every assignment to
    [font], whatever the value (the same font, another one, [None]) and
    whatever became of the fonts meanwhile, fails the assertion and leaves
    the world, hence the stored reference, as it was. *)
Theorem font_set_once (w : World) (f : FontId) :
  _font w = None ->
  let w1 := {| fonts := fonts w; _font := Some (weakref_ref f);
               ext := ext w |} in
  font_set (Some f) w = (Ok tt, w1, []) /\
  (forall values : list (option FontId),
      font_set_each values w1
      = (map (fun _ => Raise AssertionError) values, w1)) /\
  (forall (w' : World) (value : option FontId),
      _font w' = _font w1 ->
      font_set value w' = (Raise AssertionError, w', [])).
Proof.
  intros Hw w1. split; [|split].
  - apply (_set_font_unset w (Some f) Hw).
  - intros values. apply font_set_each_taken with (r := weakref_ref f).
    reflexivity.
  - intros w' value Hw'. apply _set_font_taken with (r := weakref_ref f).
    exact Hw'.
Qed.

(** C10. On a layer without a font, assigning [None] succeeds and changes
    nothing: the font still reads [None] and, after any number of such
    assignments, assigning a font succeeds and stores it. *)
Theorem font_set_None_keeps_unset (w : World) :
  _font w = None ->
  font_set None w = (Ok tt, w, []) /\
  font_get w = (Ok None, w, []) /\
  forall (n : nat) (f : FontId),
    font_set_each (replicate n None ++ [Some f]) w
    = (replicate n (Ok tt) ++ [Ok tt],
       {| fonts := fonts w; _font := Some (weakref_ref f); ext := ext w |}).
Proof.
  intros Hw.
  assert (Hnone : font_set None w = (Ok tt, w, [])).
  { rewrite (_set_font_unset w None Hw). cbn. rewrite <- Hw.
    rewrite world_eta. reflexivity. }
  split; [exact Hnone|]. split.
  - unfold font_get, dynamicProperty_get, _get_font, bind. cbn.
    rewrite Hw. reflexivity.
  - intros n f. induction n as [|n IH].
    + cbn [replicate app font_set_each].
      rewrite (_set_font_unset w (Some f) Hw). reflexivity.
    + cbn [replicate app font_set_each]. rewrite Hnone, IH. reflexivity.
Qed.

(** ** The bare base class *)

Lemma invoke_outcome {A} (ev : event) (override : option (Hook A))
  (base : M A) (w : World) :
  invoke ev override base w =
    match override with
    | Some h => (fst (h w), snd (h w), [ev])
    | None => (result (base w), world_after (base w), ev :: calls (base w))
    end.
Proof.
  unfold invoke, bind, tell, run_hook. destruct override as [h|].
  - destruct (h w) as [r w1]. reflexivity.
  - destruct (base w) as [[r w1] l]. reflexivity.
Qed.

(** C8. On the bare base class every method that subclasses must override
    raises [NotImplementedError] and changes nothing: the seven hooks, for
    every argument, and with them what is built on them: the [name],
    [color] and [lib] properties, [keys], the length, the default
    membership test and the first step of the iteration.  The membership
    test and the lookup by name, and the assignment of a color, validate
    their argument first: they raise what the validator raises, and
    [NotImplementedError] once the validator has accepted the argument. *)
Theorem bare_base_raises_NotImplementedError (w : World) :
  (raises (_get_name BaseLayer) NotImplementedError w /\
   (forall value, raises (_set_name BaseLayer value) NotImplementedError w) /\
   raises (_get_color BaseLayer) NotImplementedError w /\
   (forall value, raises (_set_color BaseLayer value) NotImplementedError w) /\
   raises (_get_lib BaseLayer) NotImplementedError w /\
   (forall name, raises (_getItem BaseLayer name) NotImplementedError w) /\
   raises (_keys BaseLayer) NotImplementedError w) /\
  (raises (name_get BaseLayer) NotImplementedError w /\
   (forall value, raises (name_set BaseLayer value) NotImplementedError w) /\
   raises (color_get BaseLayer) NotImplementedError w /\
   raises (color_set BaseLayer None) NotImplementedError w /\
   raises (lib_get BaseLayer) NotImplementedError w /\
   raises (keys BaseLayer) NotImplementedError w /\
   raises (_len BaseLayer) NotImplementedError w /\
   raises (__len__ BaseLayer) NotImplementedError w /\
   (forall name, raises (_contains BaseLayer name) NotImplementedError w) /\
   raises (_iter_next BaseLayer (__iter__ BaseLayer)) NotImplementedError w) /\
  ((forall name,
       raises (__contains__ BaseLayer name)
         match validateGlyphName name with
         | Ok _ => NotImplementedError
         | Raise e => e
         end w) /\
   (forall name,
       raises (__getitem__ BaseLayer name)
         match validateGlyphName name with
         | Ok name1 =>
             match validateGlyphName name1 with
             | Ok _ => NotImplementedError
             | Raise e => e
             end
         | Raise e => e
         end w) /\
   (forall value,
       raises (color_set BaseLayer (Some value))
         match validateColor value with
         | Ok _ => NotImplementedError
         | Raise e => e
         end w)).
Proof.
  split; [|split].
  - repeat split; intros; reflexivity.
  - repeat split; intros; reflexivity.
  - split; [|split]; intros x.
    + unfold raises, __contains__, bind, validate.
      destruct (validateGlyphName x); split; reflexivity.
    + unfold raises, __getitem__, __contains__, bind, validate.
      destruct (validateGlyphName x) as [x1|e]; [|split; reflexivity].
      destruct (validateGlyphName x1); split; reflexivity.
    + unfold raises, color_set, dynamicProperty_set, _set_base_color,
        bind, validate.
      destruct (validateColor x); split; reflexivity.
Qed.

(** C9. On the bare base class the declared operations [newGlyph],
    [removeGlyph], [insertGlyph], [round], [autoUnicodes], [interpolate],
    [getCharacterMapping] and [getReverseComponentMapping] raise nothing:
    whatever their arguments, each returns [None], calls no hook and leaves
    the world as it was. *)
Theorem declared_operations_return_None (w : World) :
  (forall name clear, newGlyph BaseLayer name clear w = (Ok None, w, [])) /\
  (forall name, removeGlyph BaseLayer name w = (Ok None, w, [])) /\
  (forall glyph name, insertGlyph BaseLayer glyph name w = (Ok None, w, [])) /\
  round BaseLayer w = (Ok None, w, []) /\
  autoUnicodes BaseLayer w = (Ok None, w, []) /\
  (forall (Factor : Type) (factor : Factor) minLayer maxLayer
          suppressError analyzeOnly showProgress,
      interpolate BaseLayer factor minLayer maxLayer
        suppressError analyzeOnly showProgress w = (Ok None, w, [])) /\
  getCharacterMapping BaseLayer w = (Ok None, w, []) /\
  getReverseComponentMapping BaseLayer w = (Ok None, w, []).
Proof. repeat split. Qed.

(** ** The name *)

Lemma font_get_attached (w : World) (r : FontId) (font : Font) :
  _font w = Some (weakref_ref r) -> fonts w !! r = Some font ->
  font_get w = (Ok (Some font), w, []).
Proof.
  intros Hw Hr. unfold font_get, dynamicProperty_get, _get_font, bind.
  cbn. rewrite Hw. cbn. rewrite Hr. reflexivity.
Qed.

(** The calls of a successful read of the name: the hook, then the
    validation of what the hook returned when that is a string. *)
Lemma name_get_calls (self : LayerClass) (w w1 : World)
  (current : option string) (l : list event) :
  name_get self w = (Ok current, w1, l) ->
  exists raw : option string,
    l = Call_get_name ::
        match raw with
        | Some v => [Call_validateLayerName v]
        | None => []
        end.
Proof.
  unfold name_get, dynamicProperty_get, _get_base_name, _get_name.
  unfold bind at 1. rewrite invoke_outcome.
  destruct (o_get_name self) as [h|]; cbn.
  - destruct (h w) as [[raw|e] w0]; cbn; [|discriminate].
    destruct raw as [v|]; cbn.
    + unfold validate. destruct (validateLayerName v); cbn; [|discriminate].
      intros [= <- <- <-]. exists (Some v). reflexivity.
    + intros [= <- <- <-]. exists None. reflexivity.
  - discriminate.
Qed.

(** C2. Take a layer whose name reads as [current], attached to a live
    font, and a valid layer name [value] that differs from [current] and is
    in the font's [layerOrder].  Assigning [value] to the name raises
    [FontPartsError("A layer with the name %r already exists." % value)];
    the calls made are the read of the name, the validation of [value] and
    the read of [layerOrder]: [_set_name] is not called.  The world is
    unchanged, so the name still reads as [current]. *)
Theorem name_set_duplicate (self : LayerClass) (w : World)
  (current : option string) (l : list event) (r : FontId) (font : Font)
  (value : string) :
  name_get self w = (Ok current, w, l) ->
  _font w = Some (weakref_ref r) -> fonts w !! r = Some font ->
  validateLayerName value = Ok value ->
  Some value <> current ->
  value ∈ layerOrder font ->
  name_set self (Some value) w
  = (Raise (FontPartsError "A layer with the name %r already exists." value),
     w, l ++ [Call_validateLayerName value; Read_layerOrder]) /\
  (forall v, Call_set_name v ∉
             calls (name_set self (Some value) w)) /\
  name_get self (world_after (name_set self (Some value) w))
  = (Ok current, w, l).
Proof.
  intros Hget Hw Hr Hvalid Hne Hin.
  assert (Hset : name_set self (Some value) w
    = (Raise (FontPartsError "A layer with the name %r already exists."
                value),
       w, l ++ [Call_validateLayerName value; Read_layerOrder])).
  { unfold name_set, dynamicProperty_set, _set_base_name.
    unfold bind at 1. rewrite Hget.
    rewrite (py_eq_false _ _ Hne).
    unfold bind at 1. unfold bind at 1. unfold validate at 1.
    rewrite Hvalid. unfold bind at 1.
    rewrite (font_get_attached w r font Hw Hr).
    cbn. rewrite (py_in_true _ _ Hin). reflexivity. }
  split; [exact Hset|]. rewrite Hset. cbn [calls world_after snd fst].
  split; [|exact Hget].
  intros v Hv. apply elem_of_app in Hv as [Hv|Hv].
  - destruct (name_get_calls self w w current l Hget) as [raw ->].
    destruct raw; not_among_calls Hv.
  - not_among_calls Hv.
Qed.

(** C3. When the name reads as [current], assigning [current] to it
    returns at once: its outcome, the world it leaves and the calls it
    makes are exactly those of the read.  So it raises nothing, the calls
    are the name hook and the read's own check of the stored name, and
    there is no validation of the assigned value, no look at the font (a
    layer without a font does as well) nor at its [layerOrder], and no
    call of [_set_name]. *)
Theorem name_set_current_is_noop (self : LayerClass) (w w1 : World)
  (current : option string) (l : list event) :
  name_get self w = (Ok current, w1, l) ->
  name_set self current w = (Ok tt, w1, l) /\
  (exists raw : option string,
      l = Call_get_name ::
          match raw with
          | Some v => [Call_validateLayerName v]
          | None => []
          end) /\
  (forall v, Call_set_name v ∉ l) /\ Read_layerOrder ∉ l.
Proof.
  intros Hget. split; [|split].
  - unfold name_set, dynamicProperty_set, _set_base_name.
    unfold bind at 1. rewrite Hget.
    rewrite (py_eq_true _ _ eq_refl).
    cbn. rewrite app_nil_r. reflexivity.
  - exact (name_get_calls self w w1 current l Hget).
  - destruct (name_get_calls self w w1 current l Hget) as [raw ->].
    split; [intros v Hv|intros Hv]; destruct raw; not_among_calls Hv.
Qed.

(** ** The color *)

(** C7. Let the color hooks keep what they are given.  Assigning a color
    tuple [value] that the validator accepts as [valid], itself a tuple the
    validator returns unchanged, and reading the color back gives
    [Color(valid)]: the tuple is validated on the way in, stored, and
    validated and wrapped on the way out.  Assigning [None] and reading
    back gives [None], with no validation at all. *)
Theorem color_set_then_get (self : LayerClass) (w : World)
  (value valid : ColorTuple) :
  stores_color self ->
  validateColor value = Ok valid ->
  validateColor valid = Ok valid ->
  (exists w1,
      (color_set self (Some value) ;; color_get self) w
      = (Ok (Some (MkColor valid)), w1,
         [Call_validateColor value; Call_set_color (Some valid);
          Call_get_color; Call_validateColor valid])) /\
  (exists w1,
      (color_set self None ;; color_get self) w
      = (Ok None, w1, [Call_set_color None; Call_get_color])).
Proof.
  intros (set & get & Hset & Hget & Hstore) Hvalue Hvalid.
  unfold color_set, color_get, dynamicProperty_set, dynamicProperty_get,
    _set_base_color, _get_base_color, _set_color, _get_color.
  split.
  - destruct (Hstore (Some valid) w) as (w1 & Hs & Hg). exists w1.
    unfold bind, validate. rewrite Hvalue. cbn.
    rewrite invoke_outcome, Hset. cbn. rewrite Hs. cbn.
    rewrite invoke_outcome, Hget. cbn. rewrite Hg. cbn.
    rewrite Hvalid. reflexivity.
  - destruct (Hstore None w) as (w1 & Hs & Hg). exists w1.
    unfold bind. cbn.
    rewrite invoke_outcome, Hset. cbn. rewrite Hs. cbn.
    rewrite invoke_outcome, Hget. cbn. rewrite Hg. reflexivity.
Qed.

(** ** Membership and lookup *)

Lemma default_contains (self : LayerClass) (w w1 : World)
  (name : string) (names : list string) (l : list event) :
  o_contains self = None ->
  validateGlyphName name = Ok name ->
  keys self w = (Ok names, w1, l) ->
  __contains__ self name w
  = (Ok (py_in name names), w1,
     [Call_validateGlyphName name; Call_contains name] ++ l).
Proof.
  intros Hc Hname Hkeys. unfold __contains__, _contains.
  unfold bind at 1. unfold validate at 1. rewrite Hname.
  rewrite invoke_outcome, Hc. cbn [fmap option_fmap option_map].
  rewrite (bind_Ok (keys self) _ w names w1 l Hkeys). cbn.
  rewrite app_nil_r. reflexivity.
Qed.

Lemma lookup_outcome (self : LayerClass) (w w1 : World)
  (name : string) (names : list string) (l : list event) :
  o_contains self = None ->
  validateGlyphName name = Ok name ->
  keys self w = (Ok names, w1, l) ->
  __getitem__ self name w
  = if py_in name names
    then (result (_getItem self name w1), world_after (_getItem self name w1),
          [Call_validateGlyphName name; Call_validateGlyphName name;
           Call_contains name] ++ l ++ calls (_getItem self name w1))
    else (Raise (no_glyph_named name), w1,
          [Call_validateGlyphName name; Call_validateGlyphName name;
           Call_contains name] ++ l).
Proof.
  intros Hc Hname Hkeys. unfold __getitem__.
  unfold bind at 1. unfold validate at 1. rewrite Hname.
  unfold bind at 1. rewrite (default_contains self w w1 name names l Hc Hname Hkeys).
  destruct (py_in name names); cbn [negb].
  - destruct (_getItem self name w1) as [[r w2] l2]. reflexivity.
  - cbn. rewrite app_nil_r. reflexivity.
Qed.

(** C4. Take a layer with the default membership test, a world in which
    its [keys] returns [names], and a valid glyph name.  Then
    [name in layer] returns whether [name] is among [names], and it is
    [True] exactly when [layer[name]] does not raise
    [FontPartsError("No glyph named %r." % name)], provided [_getItem] does
    not itself raise that error.  When [name] is not among [names] the
    lookup raises it after the two validations, the membership test and
    its [keys]: [_getItem] is not called. *)
Theorem membership_agrees_with_lookup (self : LayerClass) (w w1 : World)
  (name : string) (names : list string) (l : list event) :
  o_contains self = None ->
  validateGlyphName name = Ok name ->
  keys self w = (Ok names, w1, l) ->
  result (_getItem self name w1) <> Raise (no_glyph_named name) ->
  __contains__ self name w
  = (Ok (py_in name names), w1,
     [Call_validateGlyphName name; Call_contains name] ++ l) /\
  (py_in name names = true <->
   result (__getitem__ self name w) <> Raise (no_glyph_named name)) /\
  (name ∉ names ->
   __getitem__ self name w
   = (Raise (no_glyph_named name), w1,
      [Call_validateGlyphName name; Call_validateGlyphName name;
       Call_contains name; Call_keys]) /\
   forall n, Call_getItem n ∉ calls (__getitem__ self name w)).
Proof.
  intros Hc Hname Hkeys Hitem.
  assert (Hl : l = [Call_keys]).
  { revert Hkeys. unfold keys, _keys. rewrite invoke_outcome.
    destruct (o_keys self) as [h|]; [|discriminate].
    intros [= _ _ <-]. reflexivity. }
  split; [exact (default_contains self w w1 name names l Hc Hname Hkeys)|].
  rewrite (lookup_outcome self w w1 name names l Hc Hname Hkeys).
  split.
  - destruct (py_in name names); cbn.
    + split; [intros _; exact Hitem|reflexivity].
    + split; [discriminate|]. intros Hne. destruct Hne. reflexivity.
  - intros Hnot. rewrite (py_in_false name names Hnot). subst l. cbn.
    split; [reflexivity|]. intros n Hn. not_among_calls Hn.
Qed.

(** ** Iteration *)

Lemma keys_override (self : LayerClass) (h : Hook (list string))
  (w : World) (names : list string) :
  o_keys self = Some h -> h w = (Ok names, w) ->
  keys self w = (Ok names, w, [Call_keys]).
Proof.
  intros Hk Hw. unfold keys, _keys. rewrite invoke_outcome, Hk, Hw.
  reflexivity.
Qed.

Lemma _getItem_override (self : LayerClass) (h : string -> Hook Glyph)
  (w : World) (name : string) (glyph : Glyph) :
  o_getItem self = Some h -> h name w = (Ok glyph, w) ->
  _getItem self name w = (Ok glyph, w, [Call_getItem name]).
Proof.
  intros Hi Hw. unfold _getItem. rewrite invoke_outcome, Hi. cbn.
  rewrite Hw. reflexivity.
Qed.

Section Unchanged.

(** A layer that is not mutated: in the world [w], [keys] returns [names]
    and [_getItem] returns the glyph [glyph_of name] of each of them, both
    leaving [w] as it is; the membership test is the default one and the
    names are valid glyph names. *)
Variables (self : LayerClass) (w : World).
Variables (keys_hook : Hook (list string)) (item_hook : string -> Hook Glyph).
Variables (names : list string) (glyph_of : string -> Glyph).
Hypothesis contains_default : o_contains self = None.
Hypothesis keys_given : o_keys self = Some keys_hook.
Hypothesis item_given : o_getItem self = Some item_hook.
Hypothesis keys_at_w : keys_hook w = (Ok names, w).
Hypothesis names_valid :
  forall name, name ∈ names -> validateGlyphName name = Ok name.
Hypothesis items_at_w :
  forall name, name ∈ names -> item_hook name w = (Ok (glyph_of name), w).

Lemma lookup_listed (name : string) :
  name ∈ names ->
  __getitem__ self name w = (Ok (glyph_of name), w, lookup_calls name).
Proof.
  intros Hin.
  rewrite (lookup_outcome self w w name names [Call_keys] contains_default
             (names_valid name Hin)
             (keys_override self keys_hook w names keys_given keys_at_w)).
  rewrite (py_in_true name names Hin).
  rewrite (_getItem_override self item_hook w name (glyph_of name)
             item_given (items_at_w name Hin)).
  reflexivity.
Qed.

Lemma collect_suspended (rest : list string) :
  forall (name : string) (fuel : nat),
    (forall n, n ∈ rest -> n ∈ names) ->
    length rest < fuel ->
    collect fuel self (IterSuspended (name :: rest)) w
    = (Ok (Some (map glyph_of rest)), w, flat_map lookup_calls rest).
Proof.
  induction rest as [|next rest IH]; intros name fuel Hsub Hfuel.
  - destruct fuel as [|fuel]; [lia|]. reflexivity.
  - destruct fuel as [|fuel]; [cbn in Hfuel; lia|].
    cbn [collect _iter_next tail _iter_loop].
    rewrite (bind_Ok _ _ w (Some (glyph_of next), IterSuspended (next :: rest))
               w (lookup_calls next)).
    + rewrite (bind_Ok _ _ w (Some (map glyph_of rest)) w
                 (flat_map lookup_calls rest)).
      * cbn. rewrite app_nil_r. reflexivity.
      * apply IH.
        -- intros n Hn. apply Hsub. right. exact Hn.
        -- cbn in Hfuel. lia.
    + rewrite (bind_Ok _ _ w (glyph_of next) w (lookup_calls next)).
      * cbn. reflexivity.
      * apply lookup_listed, Hsub. left.
Qed.

Lemma collect_from_loop (listed : list string) (fuel : nat) :
  (forall n, n ∈ listed -> n ∈ names) ->
  length listed <= fuel ->
  bind (_iter_loop self listed)
    (fun r =>
       match r with
       | (None, _) => ret (Some [])
       | (Some glyph, it) =>
           rest <- collect fuel self it ;; ret (cons glyph <$> rest)
       end) w
  = (Ok (Some (map glyph_of listed)), w, flat_map lookup_calls listed).
Proof.
  intros Hsub Hfuel. destruct listed as [|name rest]; [reflexivity|].
  cbn [_iter_loop]. rewrite bind_assoc.
  rewrite (bind_Ok _ _ w (glyph_of name) w (lookup_calls name)
             (lookup_listed name (Hsub name ltac:(left)))).
  assert (Hrest : collect fuel self (IterSuspended (name :: rest)) w
                  = (Ok (Some (map glyph_of rest)), w,
                     flat_map lookup_calls rest)).
  { apply collect_suspended.
    - intros n Hn. apply Hsub. right. exact Hn.
    - cbn in Hfuel. lia. }
  rewrite bind_ret.
  rewrite (bind_Ok _ _ w (Some (map glyph_of rest)) w
             (flat_map lookup_calls rest) Hrest).
  cbn. rewrite ?app_nil_r. reflexivity.
Qed.

(** C5. On a layer that is not mutated, with its [keys] and [_getItem]
    hooks in place, every listed name is looked up with success, and the
    default iteration, run to its end, serves exactly those glyphs, one for
    each entry of the key list and in the order of the list: the glyph of
    an entry is [layer[name]].  It comes to its end: [next] is called once
    more than there are names, and any larger allowance gives the same
    result.  The world is left as it was. *)
Theorem iter_serves_each_key :
  (forall name, name ∈ names ->
     __getitem__ self name w = (Ok (glyph_of name), w, lookup_calls name)) /\
  (forall fuel, length names < fuel ->
     collect fuel self (__iter__ self) w
     = (Ok (Some (map glyph_of names)), w,
        Call_keys :: flat_map lookup_calls names)).
Proof.
  split; [exact lookup_listed|].
  intros fuel Hfuel. destruct fuel as [|fuel]; [lia|].
  cbn [collect __iter__ _iter _iter_next]. rewrite bind_assoc.
  rewrite (bind_Ok _ _ w names w [Call_keys]
             (keys_override self keys_hook w names keys_given keys_at_w)).
  rewrite collect_from_loop; [reflexivity| |lia].
  intros n Hn. exact Hn.
Qed.

End Unchanged.

Lemma lookup_calls_override (self : LayerClass)
  (c : string -> Hook bool) (name : string) (w : World) :
  o_contains self = Some c ->
  Call_keys ∉ calls (__getitem__ self name w).
Proof.
  intros Hc. unfold __getitem__, __contains__.
  unfold bind at 1. unfold validate at 1.
  destruct (validateGlyphName name) as [name1|e];
    [|intros Hin; not_among_calls Hin].
  unfold bind at 1. unfold bind at 1. unfold validate at 1.
  destruct (validateGlyphName name1) as [name2|e];
    [|intros Hin; not_among_calls Hin].
  unfold _contains, _getItem. rewrite invoke_outcome, Hc. cbn.
  destruct (c name2 w) as [[present|e] w1]; cbn;
    [|intros Hin; not_among_calls Hin].
  destruct present; cbn; [|intros Hin; not_among_calls Hin].
  rewrite invoke_outcome. destruct (o_getItem self) as [h|]; cbn;
    intros Hin; not_among_calls Hin.
Qed.

(** C6, as the code has it.  The default iteration fetches the key list
    once, in its first step, and keeps it: the first step looks up the
    first name of the list [names] that [keys] returned and suspends on
    [names]; the step after [k + 1] glyphs looks up [names[k + 1]], in
    whatever world the layer is by then and without asking [keys] for the
    names, and the iteration ends when [names] is exhausted, with no call
    at all.  [keys] is called again within a step only by the lookup's
    membership test: a class that overrides [_contains] makes no such
    call. *)
Theorem iter_walks_first_key_list (self : LayerClass)
  (names : list string) :
  (forall (w w1 : World) (l : list event),
      keys self w = (Ok names, w1, l) ->
      _iter_next self (__iter__ self) w
      = match names with
        | [] => (Ok (None, IterFinished), w1, l)
        | name :: _ => lookup_and_yield self name names w1 l
        end) /\
  (forall (k : nat) (w : World),
      _iter_next self (IterSuspended (drop k names)) w
      = match names !! S k with
        | None => (Ok (None, IterFinished), w, [])
        | Some name => lookup_and_yield self name (drop (S k) names) w []
        end) /\
  (forall c : string -> Hook bool,
      o_contains self = Some c ->
      forall (name : string) (w : World),
        Call_keys ∉ calls (__getitem__ self name w)).
Proof.
  split; [|split].
  - intros w w1 l Hkeys. cbn [__iter__ _iter _iter_next].
    rewrite (bind_Ok _ _ w names w1 l Hkeys).
    destruct names as [|name rest]; cbn [_iter_loop].
    + cbn. rewrite app_nil_r. reflexivity.
    + unfold lookup_and_yield, bind.
      destruct (__getitem__ self name w1) as [[[glyph|e] w2] l2]; cbn;
        rewrite ?app_nil_r; reflexivity.
  - intros k w. cbn [_iter_next].
    assert (Htail : tail (drop k names) = drop (S k) names).
    { transitivity (drop 1 (drop k names)).
      - destruct (drop k names); reflexivity.
      - rewrite drop_drop. f_equal. lia. }
    rewrite Htail.
    pose proof (lookup_drop names (S k) 0) as Hhead.
    rewrite Nat.add_0_r in Hhead. rewrite <- Hhead.
    destruct (drop (S k) names) as [|name rest]; cbn [_iter_loop]; cbn.
    + reflexivity.
    + unfold lookup_and_yield, bind.
      destruct (__getitem__ self name w) as [[[glyph|e] w2] l2]; cbn;
        rewrite ?app_nil_r; reflexivity.
  - intros c Hc name w. exact (lookup_calls_override self c name w Hc).
Qed.

End Properties.

(** * The properties on the small environment *)

Section OnDictLayer.

Local Existing Instance dict_env.

(** C1 on a new layer: font 1 is stored; assigning font 1 again, font 2 or
    [None] then fails and changes nothing. *)
Lemma font_set_once_witness :
  _font w_new = None /\
  font_set (Some 1%positive) w_new = (Ok tt, w_attached, []) /\
  font_set_each [Some 1%positive; Some 2%positive; None] w_attached
  = ([Raise AssertionError; Raise AssertionError; Raise AssertionError],
     w_attached).
Proof.
  split; [reflexivity|].
  destruct (font_set_once w_new 1%positive eq_refl) as (Hset & Heach & _).
  split; [exact Hset|].
  exact (Heach [Some 1%positive; Some 2%positive; None]).
Defined.

(** C10 on a new layer: two assignments of [None], then font 1. *)
Lemma font_set_None_keeps_unset_witness :
  _font w_new = None /\
  font_set None w_new = (Ok tt, w_new, []) /\
  font_get w_new = (Ok None, w_new, []) /\
  font_set_each [None; None; Some 1%positive] w_new
  = ([Ok tt; Ok tt; Ok tt], w_attached).
Proof.
  split; [reflexivity|].
  destruct (font_set_None_keeps_unset w_new eq_refl)
    as (Hnone & Hget & Heach).
  split; [exact Hnone|]. split; [exact Hget|].
  exact (Heach 2 1%positive).
Defined.

(** C2: the third layer, ["sketch"], cannot be renamed ["foreground"]. *)
Lemma name_set_duplicate_witness :
  name_set DictLayer (Some "foreground") w_attached
  = (Raise (FontPartsError "A layer with the name %r already exists."
              "foreground"),
     w_attached,
     [Call_get_name; Call_validateLayerName "sketch";
      Call_validateLayerName "foreground"; Read_layerOrder]).
Proof.
  refine (proj1 (name_set_duplicate DictLayer w_attached (Some "sketch")
                   [Call_get_name; Call_validateLayerName "sketch"]
                   1%positive font1 "foreground" _ _ _ _ _ _)).
  - reflexivity.
  - reflexivity.
  - reflexivity.
  - reflexivity.
  - discriminate.
  - unfold font1. cbn. left.
Defined.

(** C3: renaming ["sketch"] to ["sketch"], although the font has a layer
    of that name. *)
Lemma name_set_current_is_noop_witness :
  "sketch" ∈ layerOrder font1 /\
  name_set DictLayer (Some "sketch") w_attached
  = (Ok tt, w_attached, [Call_get_name; Call_validateLayerName "sketch"]).
Proof.
  split; [unfold font1; cbn; right; right; left|].
  refine (proj1 (name_set_current_is_noop DictLayer w_attached w_attached
                   (Some "sketch")
                   [Call_get_name; Call_validateLayerName "sketch"] _)).
  reflexivity.
Defined.

(** C4: ["c"] is not in the layer with glyphs ["a"] and ["b"]. *)
Lemma membership_agrees_with_lookup_witness :
  __contains__ DictLayer "c" w_attached
  = (Ok false, w_attached,
     [Call_validateGlyphName "c"; Call_contains "c"; Call_keys]) /\
  __getitem__ DictLayer "c" w_attached
  = (Raise (no_glyph_named "c"), w_attached,
     [Call_validateGlyphName "c"; Call_validateGlyphName "c";
      Call_contains "c"; Call_keys]).
Proof.
  destruct (membership_agrees_with_lookup DictLayer w_attached w_attached
              "c" ["a"; "b"] [Call_keys] eq_refl eq_refl eq_refl)
    as (Hin & _ & Hout).
  - discriminate.
  - split; [exact Hin|]. apply Hout.
    intros Hc. not_among_calls Hc.
Defined.

(** C5: iterating over the layer with glyphs ["a"] and ["b"]. *)
Lemma iter_serves_each_key_witness :
  collect 3 DictLayer (__iter__ DictLayer) w_attached
  = (Ok (Some [1; 2]), w_attached,
     Call_keys :: lookup_calls "a" ++ lookup_calls "b").
Proof.
  refine (proj2 (iter_serves_each_key DictLayer w_attached dict_keys
                   dict_getItem ["a"; "b"] glyph_ab _ _ _ _ _ _) 3 _).
  - reflexivity.
  - reflexivity.
  - reflexivity.
  - reflexivity.
  - intros name Hin. each_listed Hin.
  - intros name Hin. each_listed Hin.
  - cbn. lia.
Defined.

(** C7: a color is read back wrapped, [None] is read back as [None]. *)
Lemma color_set_then_get_witness :
  result ((color_set DictLayer (Some [1; 0; 0; 1]) ;; color_get DictLayer)
            w_attached)
  = Ok (Some (MkColor [1; 0; 0; 1])) /\
  result ((color_set DictLayer None ;; color_get DictLayer) w_attached)
  = Ok None.
Proof.
  assert (Hstore : stores_color DictLayer).
  { exists dict_set_color, dict_get_color.
    split; [reflexivity|]. split; [reflexivity|].
    intros value w. eexists. split; reflexivity. }
  destruct (color_set_then_get DictLayer w_attached [1; 0; 0; 1]
              [1; 0; 0; 1] Hstore eq_refl eq_refl)
    as ((w1 & Hcolor) & (w2 & Hnone)).
  split.
  - exact (f_equal result Hcolor).
  - exact (f_equal result Hnone).
Defined.

(** C6, as the code has it: the first step on the layer with glyphs ["a"]
    and ["b"], the step after it once ["b"] was renamed ["c"], and a lookup
    in the subclass with its own membership test. *)
Lemma iter_walks_first_key_list_witness :
  _iter_next DictLayer (__iter__ DictLayer) w_attached
  = lookup_and_yield DictLayer "a" ["a"; "b"] w_attached [Call_keys] /\
  _iter_next DictLayer (IterSuspended ["a"; "b"]) w_renamed
  = lookup_and_yield DictLayer "b" ["b"] w_renamed [] /\
  Call_keys ∉ calls (__getitem__ IndexedDictLayer "a" w_attached).
Proof.
  split; [|split].
  - exact (proj1 (iter_walks_first_key_list DictLayer ["a"; "b"])
             w_attached w_attached [Call_keys] eq_refl).
  - exact (proj1 (proj2 (iter_walks_first_key_list DictLayer ["a"; "b"]))
             0 w_renamed).
  - exact (proj2 (proj2 (iter_walks_first_key_list IndexedDictLayer []))
             dict_contains eq_refl "a" w_attached).
Defined.

(** C6, as the specification has it, fails.  The first step serves the
    glyph of ["a"] and keeps the list [["a"; "b"]].  Glyph ["b"] is then
    renamed ["c"]: [keys] now returns [["a"; "c"]].  The next step of the
    code looks up ["b"], the second name of the list it kept, and raises
    "No glyph named"; a step that fetched the list anew would serve the
    glyph of ["c"]. *)
Lemma iter_refetch_counterexample :
  (_iter_next DictLayer (__iter__ DictLayer) w_attached
   = (Ok (Some 1, IterSuspended ["a"; "b"]), w_attached,
      Call_keys :: lookup_calls "a") /\
   keys DictLayer w_renamed = (Ok ["a"; "c"], w_renamed, [Call_keys]) /\
   _iter_next DictLayer (IterSuspended ["a"; "b"]) w_renamed
   = (Raise (no_glyph_named "b"), w_renamed,
      [Call_validateGlyphName "b"; Call_validateGlyphName "b";
       Call_contains "b"; Call_keys]) /\
   _iter_refetch_next DictLayer 1 w_renamed
   = (Ok (Some 3, 2), w_renamed, Call_keys :: lookup_calls "c")) /\
  ~ iter_refetches_every_step DictLayer.
Proof.
  split.
  - repeat split; reflexivity.
  - intros Hclaim.
    specialize (Hclaim w_attached w_renamed 1 ["a"; "b"] eq_refl).
    discriminate Hclaim.
Qed.

End OnDictLayer.

(** * Further properties of the class *)

Section Further.

Context `{Environment}.

(** ** The font, read back *)

Lemma font_get_fontless (w : World) :
  fontless w -> font_get w = (Ok None, w, []).
Proof.
  intros [Hw|(r & Hw & Hr)];
    unfold font_get, dynamicProperty_get, _get_font, bind; cbn; rewrite Hw.
  - reflexivity.
  - cbn. rewrite Hr. reflexivity.
Qed.

(** X1. A font assigned to a layer without one is what [font] and
    [getParent] read afterwards, as long as the font is alive; the
    assignment leaves the fonts and the environment's state alone. *)
Theorem font_set_then_get (w : World) (f : FontId) (font : Font) :
  _font w = None ->
  fonts w !! f = Some font ->
  exists w1,
    font_set (Some f) w = (Ok tt, w1, []) /\
    fonts w1 = fonts w /\ ext w1 = ext w /\
    font_get w1 = (Ok (Some font), w1, []) /\
    getParent w1 = (Ok (Some font), w1, []).
Proof.
  intros Hw Hf.
  exists {| fonts := fonts w; _font := Some (weakref_ref f); ext := ext w |}.
  split; [exact (_set_font_unset w (Some f) Hw)|].
  split; [reflexivity|]. split; [reflexivity|].
  assert (Hget : forall w1, _font w1 = Some (weakref_ref f) ->
                            fonts w1 !! f = Some font ->
                            font_get w1 = (Ok (Some font), w1, [])).
  { intros w1 H1 H2. exact (font_get_attached w1 f font H1 H2). }
  split; apply Hget; first [reflexivity | exact Hf].
Qed.

(** X2. Once the font a layer refers to is gone, [font] and [getParent]
    read [None], and still no font can be assigned: the reference itself
    is kept, so the assertion of [_set_font] fails for every value and the
    layer stays without a parent. *)
Theorem font_gone_stays_gone (w : World) (r : FontId) :
  _font w = Some (weakref_ref r) ->
  fonts w !! r = None ->
  font_get w = (Ok None, w, []) /\
  getParent w = (Ok None, w, []) /\
  forall value, font_set value w = (Raise AssertionError, w, []).
Proof.
  intros Hw Hr.
  assert (Hnone : font_get w = (Ok None, w, [])).
  { apply font_get_fontless. right. exists r. split; assumption. }
  split; [exact Hnone|]. split; [exact Hnone|].
  intros value. exact (_set_font_taken w (weakref_ref r) value Hw).
Qed.

(** ** Renaming *)

(** What [_set_base_name] does once the new value differs from the
    current name: validation and the check against [layerOrder]. *)
Lemma name_set_differs (self : LayerClass) (w w0 : World)
  (current : option string) (l : list event) (value : string) :
  name_get self w = (Ok current, w0, l) ->
  Some value <> current ->
  name_set self (Some value) w
  = match validateLayerName value with
    | Raise e => (Raise e, w0, l ++ [Call_validateLayerName value])
    | Ok valid =>
        match result (font_get w0) with
        | Ok (Some font) =>
            if py_in valid (layerOrder font)
            then (Raise (FontPartsError
                           "A layer with the name %r already exists." valid),
                  w0, l ++ [Call_validateLayerName value; Read_layerOrder])
            else (result (_set_name self (Some valid) w0),
                  world_after (_set_name self (Some valid) w0),
                  l ++ [Call_validateLayerName value; Read_layerOrder]
                    ++ calls (_set_name self (Some valid) w0))
        | Ok None =>
            (Raise (AttributeError "layerOrder"), w0,
             l ++ [Call_validateLayerName value])
        | Raise e => (Raise e, w0, l ++ [Call_validateLayerName value])
        end
    end.
Proof.
  intros Hget Hne.
  unfold name_set, dynamicProperty_set, _set_base_name.
  unfold bind at 1. rewrite Hget. rewrite (py_eq_false _ _ Hne).
  unfold bind at 1. unfold bind at 1. unfold validate at 1.
  destruct (validateLayerName value) as [valid|e]; [|reflexivity].
  unfold bind at 1.
  assert (Hfont : font_get w0 = (result (font_get w0), w0, [])).
  { unfold font_get, dynamicProperty_get, _get_font, bind. cbn.
    destruct (_font w0) as [[referent]|]; reflexivity. }
  rewrite Hfont. cbn [result fst].
  destruct (result (font_get w0)) as [[font|]|e]; cbn; try reflexivity.
  destruct (py_in valid (layerOrder font)); cbn; [reflexivity|].
  destruct (_set_name self (Some valid) w0) as [[r w2] l2]. reflexivity.
Qed.

Lemma _set_name_stored (self : LayerClass)
  (set : option string -> Hook unit) (value : option string)
  (w w1 : World) :
  o_set_name self = Some set -> set value w = (Ok tt, w1) ->
  _set_name self value w = (Ok tt, w1, [Call_set_name value]).
Proof.
  intros Hset Hw. unfold _set_name. rewrite invoke_outcome, Hset. cbn.
  rewrite Hw. reflexivity.
Qed.

Lemma name_get_stored (self : LayerClass) (get : Hook (option string))
  (w : World) (raw : option string) :
  o_get_name self = Some get -> get w = (Ok raw, w) ->
  name_get self w
  = match raw with
    | Some v =>
        (match validateLayerName v with
         | Ok valid => Ok (Some valid)
         | Raise e => Raise e
         end, w, [Call_get_name; Call_validateLayerName v])
    | None => (Ok None, w, [Call_get_name])
    end.
Proof.
  intros Hget Hw. unfold name_get, dynamicProperty_get, _get_base_name.
  unfold bind at 1. unfold _get_name. rewrite invoke_outcome, Hget, Hw.
  cbn. destruct raw as [v|]; [|reflexivity].
  unfold bind, validate. destruct (validateLayerName v); reflexivity.
Qed.

(** X3. On a layer whose name hooks keep what they are given and which is
    attached to a live font, assigning a valid name that differs from the
    current one and is not in the font's [layerOrder] succeeds: the name is
    validated, checked against [layerOrder] and handed to [_set_name], and
    the name then reads as the new value. *)
Theorem name_set_then_get (self : LayerClass) (w w0 : World)
  (current : option string) (l : list event) (r : FontId) (font : Font)
  (value : string) :
  stores_name self ->
  name_get self w = (Ok current, w0, l) ->
  Some value <> current ->
  validateLayerName value = Ok value ->
  _font w0 = Some (weakref_ref r) -> fonts w0 !! r = Some font ->
  value ∉ layerOrder font ->
  exists w1,
    name_set self (Some value) w
    = (Ok tt, w1,
       l ++ [Call_validateLayerName value; Read_layerOrder;
             Call_set_name (Some value)]) /\
    name_get self w1
    = (Ok (Some value), w1, [Call_get_name; Call_validateLayerName value]).
Proof.
  intros (set & get & Hset & Hget & Hstore) Hread Hne Hvalid Hw Hr Hout.
  destruct (Hstore (Some value) w0) as (w1 & Hs & Hg). exists w1. split.
  - rewrite (name_set_differs self w w0 current l value Hread Hne), Hvalid.
    rewrite (font_get_attached w0 r font Hw Hr). cbn [result fst].
    rewrite (py_in_false value (layerOrder font) Hout).
    rewrite (_set_name_stored self set (Some value) w0 w1 Hset Hs).
    reflexivity.
  - rewrite (name_get_stored self get w1 (Some value) Hget Hg), Hvalid.
    reflexivity.
Qed.

(** X4. Assigning [None] to the name of a layer that has one goes straight
    to [_set_name(None)]: nothing is validated and the font is not looked
    at, so it works for a layer without a font as well; with hooks that
    keep what they are given the name then reads [None]. *)
Theorem name_set_None (self : LayerClass) (w w0 : World)
  (current : string) (l : list event) :
  stores_name self ->
  name_get self w = (Ok (Some current), w0, l) ->
  exists w1,
    name_set self None w = (Ok tt, w1, l ++ [Call_set_name None]) /\
    name_get self w1 = (Ok None, w1, [Call_get_name]).
Proof.
  intros (set & get & Hset & Hget & Hstore) Hread.
  destruct (Hstore None w0) as (w1 & Hs & Hg). exists w1. split.
  - unfold name_set, dynamicProperty_set, _set_base_name.
    unfold bind at 1. rewrite Hread.
    rewrite (py_eq_false None (Some current)) by discriminate.
    rewrite bind_ret.
    rewrite (_set_name_stored self set None w0 w1 Hset Hs). reflexivity.
  - exact (name_get_stored self get w1 None Hget Hg).
Qed.

(** X5. A layer without a font, or whose font is gone, cannot be given a
    new name: once the name is validated the read of [font.layerOrder]
    raises [AttributeError], and [_set_name] is not called. *)
Theorem name_set_fontless (self : LayerClass) (w w0 : World)
  (current : option string) (l : list event) (value valid : string) :
  name_get self w = (Ok current, w0, l) ->
  Some value <> current ->
  validateLayerName value = Ok valid ->
  fontless w0 ->
  name_set self (Some value) w
  = (Raise (AttributeError "layerOrder"), w0,
     l ++ [Call_validateLayerName value]).
Proof.
  intros Hread Hne Hvalid Hfont.
  rewrite (name_set_differs self w w0 current l value Hread Hne), Hvalid.
  rewrite (font_get_fontless w0 Hfont). reflexivity.
Qed.

(** X6. A new name that the validator rejects is refused with the
    validator's error before the font is looked at and before [_set_name]
    is called; the world is as the read of the current name left it. *)
Theorem name_set_rejected (self : LayerClass) (w w0 : World)
  (current : option string) (l : list event) (value : string) (e : exn) :
  name_get self w = (Ok current, w0, l) ->
  Some value <> current ->
  validateLayerName value = Raise e ->
  name_set self (Some value) w
  = (Raise e, w0, l ++ [Call_validateLayerName value]).
Proof.
  intros Hread Hne Hbad.
  rewrite (name_set_differs self w w0 current l value Hread Hne), Hbad.
  reflexivity.
Qed.

(** X7. When the environment hands out a name that the validator rejects,
    reading the name raises the validator's error, and so does every
    assignment to it, whatever the value: the assignment reads the current
    name first and gets no further. *)
Theorem name_unreadable (self : LayerClass) (get : Hook (option string))
  (w : World) (raw : string) (e : exn) :
  o_get_name self = Some get ->
  get w = (Ok (Some raw), w) ->
  validateLayerName raw = Raise e ->
  name_get self w = (Raise e, w, [Call_get_name; Call_validateLayerName raw]) /\
  forall value,
    name_set self value w
    = (Raise e, w, [Call_get_name; Call_validateLayerName raw]).
Proof.
  intros Hget Hw Hbad.
  assert (Hread : name_get self w
                  = (Raise e, w, [Call_get_name; Call_validateLayerName raw])).
  { rewrite (name_get_stored self get w (Some raw) Hget Hw), Hbad.
    reflexivity. }
  split; [exact Hread|]. intros value.
  unfold name_set, dynamicProperty_set, _set_base_name.
  unfold bind at 1. rewrite Hread. reflexivity.
Qed.

(** ** Rejected arguments *)

(** X8. A color tuple that the validator rejects is refused with the
    validator's error before [_set_color] is called: no hook runs and the
    world is unchanged. *)
Theorem color_set_rejected (self : LayerClass) (w : World)
  (value : ColorTuple) (e : exn) :
  validateColor value = Raise e ->
  color_set self (Some value) w = (Raise e, w, [Call_validateColor value]).
Proof.
  intros Hbad. unfold color_set, dynamicProperty_set, _set_base_color.
  unfold bind at 1. unfold bind at 1. unfold validate at 1.
  rewrite Hbad. reflexivity.
Qed.

(** X9. A glyph name that the validator rejects is refused by the
    membership test, by [has_key] and by the lookup alike, with the
    validator's error and before any hook is called: neither [_contains]
    nor [keys] nor [_getItem] runs, whatever the subclass. *)
Theorem glyph_name_rejected (self : LayerClass) (w : World)
  (name : string) (e : exn) :
  validateGlyphName name = Raise e ->
  __contains__ self name w = (Raise e, w, [Call_validateGlyphName name]) /\
  has_key self name w = (Raise e, w, [Call_validateGlyphName name]) /\
  __getitem__ self name w = (Raise e, w, [Call_validateGlyphName name]).
Proof.
  intros Hbad.
  assert (Hin : __contains__ self name w
                = (Raise e, w, [Call_validateGlyphName name])).
  { unfold __contains__. unfold bind at 1. unfold validate at 1.
    rewrite Hbad. reflexivity. }
  split; [exact Hin|]. split; [exact Hin|].
  unfold __getitem__. unfold bind at 1. unfold validate at 1.
  rewrite Hbad. reflexivity.
Qed.

(** ** Lookup under a membership test of the subclass *)

(** X10. In a class that overrides [_contains], that method alone decides
    whether a lookup finds the glyph: when it answers [False] for a valid
    name, [layer[name]] raises "No glyph named" without calling [keys] or
    [_getItem], whether or not the key list holds the name; when it answers
    [True], the lookup is the call of [_getItem]. *)
Theorem lookup_follows_contains (self : LayerClass)
  (c : string -> Hook bool) (w w1 : World) (name : string)
  (present : bool) :
  o_contains self = Some c ->
  validateGlyphName name = Ok name ->
  c name w = (Ok present, w1) ->
  __getitem__ self name w
  = if present
    then (result (_getItem self name w1),
          world_after (_getItem self name w1),
          [Call_validateGlyphName name; Call_validateGlyphName name;
           Call_contains name] ++ calls (_getItem self name w1))
    else (Raise (no_glyph_named name), w1,
          [Call_validateGlyphName name; Call_validateGlyphName name;
           Call_contains name]).
Proof.
  intros Hc Hname Hw. unfold __getitem__.
  unfold bind at 1. unfold validate at 1. rewrite Hname.
  assert (Hin : __contains__ self name w
                = (Ok present, w1,
                   [Call_validateGlyphName name; Call_contains name])).
  { unfold __contains__, _contains.
    unfold bind at 1. unfold validate at 1. rewrite Hname.
    rewrite invoke_outcome, Hc. cbn. rewrite Hw. reflexivity. }
  unfold bind at 1. rewrite Hin. destruct present; cbn [negb].
  - destruct (_getItem self name w1) as [[r w2] l2]. reflexivity.
  - reflexivity.
Qed.

(** ** Iteration and a layer that changes *)

(** X11. A step of the iteration whose next kept name is no longer in the
    key list raises "No glyph named" for that name: a glyph removed or
    renamed after the iteration started and before its turn makes the
    iteration fail there, and [_getItem] is not called. *)
Theorem iter_next_removed (self : LayerClass) (w w1 : World)
  (served next : string) (rest names : list string) (l : list event) :
  o_contains self = None ->
  validateGlyphName next = Ok next ->
  keys self w = (Ok names, w1, l) ->
  next ∉ names ->
  _iter_next self (IterSuspended (served :: next :: rest)) w
  = (Raise (no_glyph_named next), w1,
     [Call_validateGlyphName next; Call_validateGlyphName next;
      Call_contains next] ++ l).
Proof.
  intros Hc Hnext Hkeys Hgone. cbn [_iter_next tail _iter_loop].
  unfold bind at 1.
  rewrite (lookup_outcome self w w1 next names l Hc Hnext Hkeys).
  rewrite (py_in_false next names Hgone). reflexivity.
Qed.

(** ** Iteration, length and the calls of [keys] *)

Lemma keys_calls_app (l1 l2 : list event) :
  keys_calls (l1 ++ l2) = keys_calls l1 + keys_calls l2.
Proof.
  induction l1 as [|ev l1 IH]; [reflexivity|].
  destruct ev; cbn; rewrite ?IH; reflexivity.
Qed.

Lemma keys_calls_lookups (names : list string) :
  keys_calls (flat_map lookup_calls names) = length names.
Proof.
  induction names as [|name names IH]; [reflexivity|].
  cbn. rewrite IH. reflexivity.
Qed.

Section Steady.

(** A layer that does not change, as for the iteration above: in [w],
    [keys] returns [names] and [_getItem] the glyph of each of them, the
    membership test is the default one and the names are valid. *)
Variables (self : LayerClass) (w : World).
Variables (keys_hook : Hook (list string)) (item_hook : string -> Hook Glyph).
Variables (names : list string) (glyph_of : string -> Glyph).
Hypothesis contains_default : o_contains self = None.
Hypothesis keys_given : o_keys self = Some keys_hook.
Hypothesis item_given : o_getItem self = Some item_hook.
Hypothesis keys_at_w : keys_hook w = (Ok names, w).
Hypothesis names_valid :
  forall name, name ∈ names -> validateGlyphName name = Ok name.
Hypothesis items_at_w :
  forall name, name ∈ names -> item_hook name w = (Ok (glyph_of name), w).

Lemma collect_steady (fuel : nat) :
  length names < fuel ->
  collect fuel self (__iter__ self) w
  = (Ok (Some (map glyph_of names)), w,
     Call_keys :: flat_map lookup_calls names).
Proof.
  intros Hfuel. destruct fuel as [|fuel]; [lia|].
  cbn [collect __iter__ _iter _iter_next]. rewrite bind_assoc.
  rewrite (bind_Ok _ _ w names w [Call_keys]
             (keys_override self keys_hook w names keys_given keys_at_w)).
  rewrite (collect_from_loop self w keys_hook item_hook names glyph_of
             contains_default keys_given item_given keys_at_w names_valid
             items_at_w names fuel); [reflexivity| |lia].
  intros n Hn. exact Hn.
Qed.

(** X12. On a layer that does not change and keeps the default [_len],
    [len(layer)] is the length of the key list, and it is the number of
    glyphs the iteration serves. *)
Theorem len_counts_iterated (fuel : nat) :
  o_len self = None ->
  length names < fuel ->
  __len__ self w = (Ok (length names), w, [Call_len; Call_keys]) /\
  exists glyphs,
    result (collect fuel self (__iter__ self) w) = Ok (Some glyphs) /\
    result (__len__ self w) = Ok (length glyphs).
Proof.
  intros Hlen Hfuel.
  assert (Hl : __len__ self w
               = (Ok (length names), w, [Call_len; Call_keys])).
  { unfold __len__, _len. rewrite invoke_outcome, Hlen.
    rewrite (bind_Ok _ _ w names w [Call_keys]
               (keys_override self keys_hook w names keys_given keys_at_w)).
    reflexivity. }
  split; [exact Hl|]. exists (map glyph_of names).
  rewrite (collect_steady fuel Hfuel), Hl. cbn.
  rewrite length_map. split; reflexivity.
Qed.

(** X13. With the default membership test, iterating over a layer of [n]
    glyphs calls [keys] [n + 1] times: once to start, and once more inside
    every lookup. *)
Theorem iter_keys_calls (fuel : nat) :
  length names < fuel ->
  keys_calls (calls (collect fuel self (__iter__ self) w))
  = S (length names).
Proof.
  intros Hfuel. rewrite (collect_steady fuel Hfuel). cbn [calls snd].
  cbn [keys_calls]. rewrite keys_calls_lookups. reflexivity.
Qed.

(** X14. An iteration that is resumed serves the names it kept, not the
    names the layer has by then: when every name still to come is in the
    layer as it is now, the rest of the iteration serves exactly their
    glyphs, in the kept order, and a name that the layer has gained since
    the iteration started is not served. *)
Theorem iter_resumed_serves_kept (served : string) (kept : list string)
  (fuel : nat) :
  (forall n, n ∈ kept -> n ∈ names) ->
  length kept < fuel ->
  collect fuel self (IterSuspended (served :: kept)) w
  = (Ok (Some (map glyph_of kept)), w, flat_map lookup_calls kept).
Proof.
  intros Hkept Hfuel.
  exact (collect_suspended self w keys_hook item_hook names glyph_of
           contains_default keys_given item_given keys_at_w names_valid
           items_at_w kept served fuel Hkept Hfuel).
Qed.

End Steady.

(** ** Iteration over a key list with a bad name *)

Section BadKey.

(** The key list is [good ++ bad :: others]: the names of [good] are valid
    and have their glyphs, [bad] is rejected by the validator. *)
Variables (self : LayerClass) (w : World).
Variables (keys_hook : Hook (list string)) (item_hook : string -> Hook Glyph).
Variables (good others : list string) (bad : string) (e : exn).
Variable glyph_of : string -> Glyph.
Hypothesis contains_default : o_contains self = None.
Hypothesis keys_given : o_keys self = Some keys_hook.
Hypothesis item_given : o_getItem self = Some item_hook.
Hypothesis keys_at_w : keys_hook w = (Ok (good ++ bad :: others), w).
Hypothesis good_valid :
  forall name, name ∈ good -> validateGlyphName name = Ok name.
Hypothesis good_items :
  forall name, name ∈ good -> item_hook name w = (Ok (glyph_of name), w).
Hypothesis bad_rejected : validateGlyphName bad = Raise e.

Lemma lookup_good (name : string) :
  name ∈ good ->
  __getitem__ self name w = (Ok (glyph_of name), w, lookup_calls name).
Proof.
  intros Hin.
  rewrite (lookup_outcome self w w name (good ++ bad :: others) [Call_keys]
             contains_default (good_valid name Hin)
             (keys_override self keys_hook w _ keys_given keys_at_w)).
  rewrite py_in_true by (apply elem_of_app; left; exact Hin).
  rewrite (_getItem_override self item_hook w name (glyph_of name)
             item_given (good_items name Hin)).
  reflexivity.
Qed.

Lemma lookup_bad :
  __getitem__ self bad w = (Raise e, w, [Call_validateGlyphName bad]).
Proof.
  unfold __getitem__. unfold bind at 1. unfold validate at 1.
  rewrite bad_rejected. reflexivity.
Qed.

Lemma collect_loop_bad (listed : list string) :
  forall fuel : nat,
    (forall n, n ∈ listed -> n ∈ good) ->
    length listed <= fuel ->
    bind (_iter_loop self (listed ++ bad :: others))
      (fun r =>
         match r with
         | (None, _) => ret (Some [])
         | (Some glyph, it) =>
             rest <- collect fuel self it ;; ret (cons glyph <$> rest)
         end) w
    = (Raise e, w,
       flat_map lookup_calls listed ++ [Call_validateGlyphName bad]).
Proof.
  induction listed as [|name listed IH]; intros fuel Hsub Hfuel.
  - cbn [app _iter_loop]. rewrite bind_assoc.
    unfold bind at 1. rewrite lookup_bad. reflexivity.
  - destruct fuel as [|fuel]; [cbn in Hfuel; lia|].
    cbn [app _iter_loop]. rewrite bind_assoc.
    rewrite (bind_Ok _ _ w (glyph_of name) w (lookup_calls name)
               (lookup_good name (Hsub name ltac:(left)))).
    rewrite bind_ret. cbn beta iota.
    assert (Hcollect :
      collect (S fuel) self (IterSuspended (name :: listed ++ bad :: others)) w
      = (Raise e, w,
         flat_map lookup_calls listed ++ [Call_validateGlyphName bad])).
    { cbn [collect _iter_next tail]. apply IH.
      - intros n Hn. apply Hsub. right. exact Hn.
      - cbn in Hfuel. lia. }
    unfold bind at 1 2 3. rewrite Hcollect. reflexivity.
Qed.

(** X15. When the key list holds a name that the glyph-name validator
    rejects, the iteration raises the validator's error at that name: the
    glyphs of the names before it are looked up, the name itself is only
    validated, the names after it are never reached, and collecting the
    iteration ends in that error whatever the allowance above the number
    of names before the bad one. *)
Theorem iter_raises_at_bad_key (fuel : nat) :
  length good < fuel ->
  collect fuel self (__iter__ self) w
  = (Raise e, w,
     Call_keys :: flat_map lookup_calls good ++ [Call_validateGlyphName bad]).
Proof.
  intros Hfuel. destruct fuel as [|fuel]; [lia|].
  cbn [collect __iter__ _iter _iter_next]. rewrite bind_assoc.
  rewrite (bind_Ok _ _ w (good ++ bad :: others) w [Call_keys]
             (keys_override self keys_hook w _ keys_given keys_at_w)).
  rewrite (collect_loop_bad good fuel); [reflexivity| |lia].
  intros n Hn. exact Hn.
Qed.

End BadKey.

End Further.

(** * The further properties on the small environment *)

Section FurtherOnDictLayer.

Local Existing Instance dict_env.

Lemma DictLayer_stores_name : stores_name DictLayer.
Proof.
  exists dict_set_name, dict_get_name.
  split; [reflexivity|]. split; [reflexivity|].
  intros value w. eexists. split; reflexivity.
Defined.

(** X1 on a new layer: font 1 is assigned and read back. *)
Lemma font_set_then_get_witness :
  exists w1,
    font_set (Some 1%positive) w_new = (Ok tt, w1, []) /\
    font_get w1 = (Ok (Some font1), w1, []).
Proof.
  destruct (font_set_then_get w_new 1%positive font1 eq_refl eq_refl)
    as (w1 & Hset & _ & _ & Hget & _).
  exists w1. split; [exact Hset|exact Hget].
Defined.

(** X2 on the layer whose font was destroyed. *)
Lemma font_gone_stays_gone_witness :
  font_get w_orphan = (Ok None, w_orphan, []) /\
  font_set (Some 2%positive) w_orphan = (Raise AssertionError, w_orphan, []).
Proof.
  destruct (font_gone_stays_gone w_orphan 1%positive eq_refl eq_refl)
    as (Hget & _ & Hset).
  split; [exact Hget|exact (Hset (Some 2%positive))].
Defined.

(** X3: the layer ["sketch"] is renamed ["mask"]. *)
Lemma name_set_then_get_witness :
  exists w1,
    result (name_set DictLayer (Some "mask") w_attached) = Ok tt /\
    world_after (name_set DictLayer (Some "mask") w_attached) = w1 /\
    result (name_get DictLayer w1) = Ok (Some "mask").
Proof.
  destruct (name_set_then_get DictLayer w_attached w_attached
              (Some "sketch")
              [Call_get_name; Call_validateLayerName "sketch"]
              1%positive font1 "mask" DictLayer_stores_name eq_refl)
    as (w1 & Hset & Hget).
  - discriminate.
  - reflexivity.
  - reflexivity.
  - reflexivity.
  - intros Hin. not_among_calls Hin.
  - exists w1. split; [exact (f_equal result Hset)|].
    split; [exact (f_equal world_after Hset)|exact (f_equal result Hget)].
Defined.

(** X4: the name of a layer without a font is set to [None]. *)
Lemma name_set_None_witness :
  _font w_new = None /\
  exists w1,
    name_set DictLayer None w_new
    = (Ok tt, w1,
       [Call_get_name; Call_validateLayerName "sketch"; Call_set_name None]) /\
    name_get DictLayer w1 = (Ok None, w1, [Call_get_name]).
Proof.
  split; [reflexivity|].
  exact (name_set_None DictLayer w_new w_new "sketch"
           [Call_get_name; Call_validateLayerName "sketch"]
           DictLayer_stores_name eq_refl).
Defined.

(** X5: the layer whose font was destroyed is not renamed ["mask"]. *)
Lemma name_set_fontless_witness :
  name_set DictLayer (Some "mask") w_orphan
  = (Raise (AttributeError "layerOrder"), w_orphan,
     [Call_get_name; Call_validateLayerName "sketch";
      Call_validateLayerName "mask"]).
Proof.
  refine (name_set_fontless DictLayer w_orphan w_orphan (Some "sketch")
            [Call_get_name; Call_validateLayerName "sketch"]
            "mask" "mask" eq_refl _ eq_refl _).
  - discriminate.
  - right. exists 1%positive. split; reflexivity.
Defined.

(** X6: the empty string is no layer name. *)
Lemma name_set_rejected_witness :
  name_set DictLayer (Some "") w_attached
  = (Raise (ValidationError "empty name"), w_attached,
     [Call_get_name; Call_validateLayerName "sketch";
      Call_validateLayerName ""]).
Proof.
  refine (name_set_rejected DictLayer w_attached w_attached (Some "sketch")
            [Call_get_name; Call_validateLayerName "sketch"]
            "" (ValidationError "empty name") eq_refl _ eq_refl).
  discriminate.
Defined.

(** X7: the environment hands out the empty string as the name. *)
Lemma name_unreadable_witness :
  name_get DictLayer w_nameless
  = (Raise (ValidationError "empty name"), w_nameless,
     [Call_get_name; Call_validateLayerName ""]) /\
  name_set DictLayer (Some "mask") w_nameless
  = (Raise (ValidationError "empty name"), w_nameless,
     [Call_get_name; Call_validateLayerName ""]).
Proof.
  destruct (name_unreadable DictLayer dict_get_name w_nameless ""
              (ValidationError "empty name") eq_refl eq_refl eq_refl)
    as (Hget & Hset).
  split; [exact Hget|exact (Hset (Some "mask"))].
Defined.

(** X8: a component above 1 is no color. *)
Lemma color_set_rejected_witness :
  color_set DictLayer (Some [2; 0; 0; 1]) w_attached
  = (Raise (ValidationError "not a color"), w_attached,
     [Call_validateColor [2; 0; 0; 1]]).
Proof.
  exact (color_set_rejected DictLayer w_attached [2; 0; 0; 1]
           (ValidationError "not a color") eq_refl).
Defined.

(** X9: the empty string is no glyph name. *)
Lemma glyph_name_rejected_witness :
  __contains__ DictLayer "" w_attached
  = (Raise (ValidationError "empty name"), w_attached,
     [Call_validateGlyphName ""]) /\
  __getitem__ DictLayer "" w_attached
  = (Raise (ValidationError "empty name"), w_attached,
     [Call_validateGlyphName ""]).
Proof.
  destruct (glyph_name_rejected DictLayer w_attached ""
              (ValidationError "empty name") eq_refl)
    as (Hin & _ & Hitem).
  split; [exact Hin|exact Hitem].
Defined.

(** X10: glyph ["a"] is in the key list, the membership test of the
    subclass says it is not, and the lookup follows the test. *)
Lemma lookup_follows_contains_witness :
  result (keys BlindDictLayer w_attached) = Ok ["a"; "b"] /\
  __getitem__ BlindDictLayer "a" w_attached
  = (Raise (no_glyph_named "a"), w_attached,
     [Call_validateGlyphName "a"; Call_validateGlyphName "a";
      Call_contains "a"]).
Proof.
  split; [reflexivity|].
  exact (lookup_follows_contains BlindDictLayer blind_contains w_attached
           w_attached "a" false eq_refl eq_refl eq_refl).
Defined.

(** X11: ["b"] was renamed ["c"] after the first step. *)
Lemma iter_next_removed_witness :
  _iter_next DictLayer (IterSuspended ["a"; "b"]) w_renamed
  = (Raise (no_glyph_named "b"), w_renamed,
     [Call_validateGlyphName "b"; Call_validateGlyphName "b";
      Call_contains "b"; Call_keys]).
Proof.
  refine (iter_next_removed DictLayer w_renamed w_renamed "a" "b" []
            ["a"; "c"] [Call_keys] eq_refl eq_refl eq_refl _).
  intros Hin. not_among_calls Hin.
Defined.

(** X12: the layer with glyphs ["a"] and ["b"] has length 2. *)
Lemma len_counts_iterated_witness :
  __len__ DictLayer w_attached = (Ok 2, w_attached, [Call_len; Call_keys]) /\
  result (collect 3 DictLayer (__iter__ DictLayer) w_attached)
  = Ok (Some [1; 2]).
Proof.
  destruct (len_counts_iterated DictLayer w_attached dict_keys dict_getItem
              ["a"; "b"] glyph_ab eq_refl eq_refl eq_refl eq_refl
              ltac:(intros name Hin; each_listed Hin)
              ltac:(intros name Hin; each_listed Hin)
              3 eq_refl ltac:(cbn; lia))
    as (Hlen & _).
  split; [exact Hlen|reflexivity].
Defined.

(** X13: three calls of [keys] for two glyphs. *)
Lemma iter_keys_calls_witness :
  keys_calls (calls (collect 3 DictLayer (__iter__ DictLayer) w_attached))
  = 3.
Proof.
  exact (iter_keys_calls DictLayer w_attached dict_keys dict_getItem
           ["a"; "b"] glyph_ab eq_refl eq_refl eq_refl eq_refl
           ltac:(intros name Hin; each_listed Hin)
           ltac:(intros name Hin; each_listed Hin)
           3 ltac:(cbn; lia)).
Defined.

(** X14: the iteration started on glyphs ["a"] and ["b"]; ["c"] was added
    after the first step and is not served. *)
Lemma iter_resumed_serves_kept_witness :
  result (keys DictLayer w_grown) = Ok ["a"; "b"; "c"] /\
  collect 2 DictLayer (IterSuspended ["a"; "b"]) w_grown
  = (Ok (Some [2]), w_grown, lookup_calls "b").
Proof.
  split; [reflexivity|].
  refine (iter_resumed_serves_kept DictLayer w_grown dict_keys dict_getItem
            ["a"; "b"; "c"] glyph_abc eq_refl eq_refl eq_refl eq_refl
            _ _ "a" ["b"] 2 _ _).
  - intros name Hin. each_listed Hin.
  - intros name Hin. each_listed Hin.
  - intros n Hn. apply elem_of_cons in Hn as [->|Hn].
    + right. left.
    + apply elem_of_nil in Hn. destruct Hn.
  - cbn. lia.
Defined.

(** X15: the key list is ["a"], the empty string, ["b"]. *)
Lemma iter_raises_at_bad_key_witness :
  collect 3 DictLayer (__iter__ DictLayer) w_bad_key
  = (Raise (ValidationError "empty name"), w_bad_key,
     Call_keys :: lookup_calls "a" ++ [Call_validateGlyphName ""]).
Proof.
  refine (iter_raises_at_bad_key DictLayer w_bad_key dict_keys dict_getItem
            ["a"] ["b"] "" (ValidationError "empty name") glyph_ab
            eq_refl eq_refl eq_refl eq_refl _ _ eq_refl 3 _).
  - intros name Hin. each_listed Hin.
  - intros name Hin. each_listed Hin.
  - cbn. lia.
Defined.

End FurtherOnDictLayer.
